(** * bigboost: the Flask demo handler and the batch deploy check

    A shallow embedding of [app.py] and [fake_deploy.py].

    Conventions of the embedding.
    - numpy's float64 (and xgboost's float32) values are idealised as real
      numbers [R]: no rounding, no overflow, no NaN.
    - A one-dimensional numpy array is a [list R]; a two-dimensional one is a
      list of rows.
    - Python exceptions are the [Raise] outcome of a state-and-exception
      monad over a [World] holding the file system, the operating system's
      entropy source and standard output.  The world also carries a ghost
      [trace] of the calls made to the outside, which the program cannot
      read.
    - xgboost, numpy, Flask and the Python runtime are not part of the
      repository.  What xgboost and numpy compute is left abstract (type
      classes [XGBoostLib] and [NumPyLib]); the part of their behaviour the
      scripts rely on is written out after the specification, in
      definitions marked as such. *)

From Stdlib Require Import Reals Lra Lia String Ascii NArith ZArith Bool List.
Import ListNotations.

Set Implicit Arguments.

Local Open Scope R_scope.

(** ** Outcomes of Python code *)

Inductive exn : Type :=
| XGBoostError        (* load_model could not read or parse the file *)
| ShapeMismatch       (* ValueError: feature shape mismatch in predict *)
| BroadcastError      (* ValueError: operands could not be broadcast *)
| IndexError          (* index out of bounds *)
| NotFittedError.     (* predict on a regressor with no model loaded *)

Inductive result (A : Type) : Type :=
| Ok (a : A)
| Raise (e : exn).

Arguments Ok {A} a.
Arguments Raise {A} e.

Definition ndarray : Type := list R.
Definition matrix : Type := list (list R).

(** ** The external libraries *)

(** What xgboost provides: a parser of the serialized model, the number of
    features the ensemble was trained on, and the value of the ensemble on
    one row. *)
Class XGBoostLib : Type := {
  Booster : Type;
  parse_model : string -> option Booster;
  num_features : Booster -> nat;
  predict_row : Booster -> list R -> R
}.

(** What numpy provides: the bit generator behind [default_rng], its raw
    64-bit output, its Gaussian sampler, and the [str] of an array. *)
Class NumPyLib : Type := {
  BitGen : Type;
  next_uint64 : BitGen -> N * BitGen;
  next_gauss : BitGen -> R * BitGen;
  array_str : ndarray -> string
}.

(** ** The world and the monad *)

Inductive Event : Type :=
| EvLoad (path : string)
| EvEntropy
| EvPredict (X : matrix)
| EvPrint (s : string).

Section Program.

Context {xgb : XGBoostLib} {np : NumPyLib}.

Record World : Type := mkWorld {
  files : string -> option string;   (* readable files and their contents *)
  entropy : nat -> BitGen;           (* fresh generator states from the OS *)
  entropy_pos : nat;                 (* how many have been handed out *)
  stdout : string;
  trace : list Event                 (* ghost: calls to the outside, oldest first *)
}.

Definition M (A : Type) : Type := World -> result A * World.

Definition ret {A} (a : A) : M A := fun w => (Ok a, w).

Definition raise {A} (e : exn) : M A := fun w => (Raise e, w).

Definition bind {A B} (m : M A) (k : A -> M B) : M B :=
  fun w =>
    match m w with
    | (Ok a, w') => k a w'
    | (Raise e, w') => (Raise e, w')
    end.

Definition log (e : Event) : M unit :=
  fun w => (Ok tt, mkWorld (files w) (entropy w) (entropy_pos w) (stdout w)
                           (trace w ++ [e])).

End Program.

Notation "x <- m ;; k" := (bind m (fun x => k))
  (at level 61, m at next level, right associativity).
Notation "m ;;; k" := (bind m (fun _ => k))
  (at level 61, right associativity).

Section Libraries.

Context {xgb : XGBoostLib} {np : NumPyLib}.

(** ** numpy *)

(** Modelled from the spec: numpy's [Generator] is not in src.  The spec
    has the features "drawn uniformly from [0,1)"; a draw is built the way
    numpy builds one, from the top 53 bits of one 64-bit word scaled by
    2^-53.  The distribution itself is not modelled. *)
Definition next_double (g : BitGen) : R * BitGen :=
  let (k, g') := next_uint64 g in
  (IZR (Z.of_N (N.shiftr (k mod 2 ^ 64) 11)) / 9007199254740992, g').

(** Filling an array of [n] elements with successive draws. *)
Fixpoint random_fill (draw : BitGen -> R * BitGen) (n : nat) (g : BitGen)
  : ndarray * BitGen :=
  match n with
  | O => ([], g)
  | S n' =>
      let (v, g1) := draw g in
      let (vs, g2) := random_fill draw n' g1 in
      (v :: vs, g2)
  end.

(** [rng.uniform(low, high, size=n)]: [low + (high - low) * random()]. *)
Definition uniform_draw (low high : R) (g : BitGen) : R * BitGen :=
  let (d, g') := next_double g in (low + (high - low) * d, g').

(** [rng.normal(loc, scale, size=n)]: [loc + scale * gauss()]. *)
Definition normal_draw (loc scale : R) (g : BitGen) : R * BitGen :=
  let (z, g') := next_gauss g in (loc + scale * z, g').

(** [rng.uniform(size=n)], with the default bounds 0 and 1. *)
Definition uniform (g : BitGen) (n : nat) : ndarray * BitGen :=
  random_fill (uniform_draw 0 1) n g.

(** [rng.uniform(size=(rows, cols))]: filled row by row. *)
Fixpoint uniform2 (g : BitGen) (rows cols : nat) : matrix * BitGen :=
  match rows with
  | O => ([], g)
  | S r =>
      let (row, g1) := uniform g cols in
      let (rest, g2) := uniform2 g1 r cols in
      (row :: rest, g2)
  end.

(** [rng.normal(size=n)], with the default location 0 and scale 1. *)
Definition normal (g : BitGen) (n : nat) : ndarray * BitGen :=
  random_fill (normal_draw 0 1) n g.

(** [a[i]] on a one-dimensional array, for a non-negative index. *)
Definition getitem (a : ndarray) (i : nat) : M R :=
  match nth_error a i with
  | Some v => ret v
  | None => raise IndexError
  end.

(** [a[np.newaxis, ...]]: the array as the single row of a matrix. *)
Definition newaxis (a : ndarray) : matrix := [a].

(** [s * a] and [s + a] for a scalar [s] and an array [a]. *)
Definition scalar_mul (s : R) (a : ndarray) : ndarray := map (Rmult s) a.
Definition scalar_add (s : R) (a : ndarray) : ndarray := map (Rplus s) a.

(** [a - b] on one-dimensional arrays, with numpy's broadcasting: equal
    lengths pair up, an array of length one is stretched, anything else is
    an error. *)
Fixpoint zip_sub (a b : ndarray) : ndarray :=
  match a, b with
  | u :: a', v :: b' => (u - v) :: zip_sub a' b'
  | _, _ => []
  end.

Definition array_sub (a b : ndarray) : M ndarray :=
  if Nat.eqb (length a) (length b) then ret (zip_sub a b)
  else match a, b with
       | [u], _ => ret (map (fun v => u - v) b)
       | _, [v] => ret (map (fun u => u - v) a)
       | _, _ => raise BroadcastError
       end.

(** [a ** 2], element by element. *)
Definition array_sq (a : ndarray) : ndarray := map (fun v => v ^ 2) a.

(** [np.random.default_rng()]: a generator seeded from the operating
    system's entropy; each call takes the next state the source holds. *)
Definition default_rng : M BitGen :=
  log EvEntropy ;;;
  fun w => (Ok (entropy w (entropy_pos w)),
            mkWorld (files w) (entropy w) (S (entropy_pos w)) (stdout w)
                    (trace w)).

(** ** xgboost *)

(** An [XGBRegressor] object: unfitted until a model is loaded into it. *)
Definition Regressor : Type := option Booster.

Definition XGBRegressor : Regressor := None.

(** Modelled from the spec: xgboost's [load_model] is not in src.  It reads
    the file at [path] and parses it, and the object then holds the loaded
    booster; "if the model file is missing or unreadable, the request fails
    with an unhandled error". *)
Definition load_model (model : Regressor) (path : string) : M Regressor :=
  log (EvLoad path) ;;;
  fun w =>
    match files w path with
    | None => (Raise XGBoostError, w)
    | Some contents =>
        match parse_model contents with
        | None => (Raise XGBoostError, w)
        | Some b => (Ok (Some b), w)
        end
    end.

(** Modelled from the spec: xgboost's [predict] is not in src.  It yields
    one value per row, and "passing any other length to the prediction call
    fails with a shape-mismatch error": every row must have as many columns
    as the model has features. *)
Definition predict (model : Regressor) (X : matrix) : M ndarray :=
  log (EvPredict X) ;;;
  match model with
  | None => raise NotFittedError
  | Some b =>
      if forallb (fun row => Nat.eqb (length row) (num_features b)) X
      then ret (map (predict_row b) X)
      else raise ShapeMismatch
  end.

(** ** Python's [print] *)

Definition newline : string := String (ascii_of_nat 10) EmptyString.

Definition print (s : string) : M unit :=
  log (EvPrint s) ;;;
  fun w => (Ok tt, mkWorld (files w) (entropy w) (entropy_pos w)
                           (stdout w ++ s ++ newline)%string (trace w)).

End Libraries.

Section Scripts.

Context {xgb : XGBoostLib} {np : NumPyLib}.

(** ** app.py *)

(** The local variables of [hello_model] that are live when the response is
    formatted. *)
Record Locals : Type := mkLocals {
  x : ndarray;
  pred : ndarray;
  true_ : ndarray
}.

(** Lines 11 to 19 of [hello_model]: everything up to the [return]. *)
Definition hello_model_locals : M Locals :=
  let model := XGBRegressor in
  model <- load_model model "smallmodel.txt" ;;
  rng <- default_rng ;;
  let (x, rng) := uniform rng 20 in
  pred <- predict model (newaxis x) ;;
  x0 <- getitem x 0 ;;
  x1 <- getitem x 1 ;;
  x2 <- getitem x 2 ;;
  x3 <- getitem x 3 ;;
  x4 <- getitem x 4 ;;
  let true_ := 2 * sin (PI * x0 * x1) + (2 * x2 - 1) ^ 2 + 2 * x3 + x4 in
  let (noise, rng) := normal rng 1 in
  let true_ := scalar_add (5 * true_) (scalar_mul 0.1 noise) in
  ret (mkLocals x pred true_).

(** The f-string of the [return] statement. *)
Definition render (prediction error : string) : string :=
  ("Prediction: " ++ prediction ++ newline ++
   " Error: " ++ error ++ newline ++
   " n.b. model suboptimal to save time")%string.

Definition hello_model : M string :=
  l <- hello_model_locals ;;
  diff <- array_sub (true_ l) (pred l) ;;
  ret (render (array_str (pred l)) (array_str (array_sq diff))).

(** An HTTP response, as far as the specification looks at it. *)
Record Response : Type := mkResponse {
  status : nat;
  body : string
}.

(** The page Flask answers with when a view raises; nothing in it comes
    from the view. *)
Definition internal_server_error : string :=
  "<!doctype html><title>500 Internal Server Error</title>".

(** Modelled from the spec: Flask's dispatch of [@app.route('/')] is not in
    src.  A [GET /] is answered with "HTTP 200" and the string the view
    returns; an unhandled error "manifests as a server error to the
    caller", Flask's fixed status-500 page. *)
Definition get_root (w : World) : Response * World :=
  match hello_model w with
  | (Ok s, w') => (mkResponse 200 s, w')
  | (Raise _, w') => (mkResponse 500 internal_server_error, w')
  end.

(** ** fake_deploy.py *)

Definition fake_deploy : M unit :=
  let model := XGBRegressor in
  model <- load_model model "smallmodel.txt" ;;
  rng <- default_rng ;;
  let (X_deploy, rng) := uniform2 rng 10 20 in
  p <- predict model X_deploy ;;
  print (array_str p).

(** Modelled from the spec: the Python runtime is not in src.  The exit
    status is 0 when the module body finishes; an uncaught error
    "terminates the script" with "a non-zero exit status", which is 1. *)
Definition python_main (script : M unit) (w : World) : nat * World :=
  match script w with
  | (Ok _, w') => (0%nat, w')
  | (Raise _, w') => (1%nat, w')
  end.

(** ** Vocabulary of the statements *)

(** The model stored at the fixed path, when the file is there and parses. *)
Definition stored_model (w : World) : option Booster :=
  match files w "smallmodel.txt" with
  | Some contents => parse_model contents
  | None => None
  end.

(** The generator state the next [default_rng()] will start from. *)
Definition fresh_rng (w : World) : BitGen := entropy w (entropy_pos w).

(** The model file is valid for the scripts: it is there, it parses, and
    the ensemble takes the 20 features the scripts feed it. *)
Definition valid_model (w : World) (b : Booster) : Prop :=
  stored_model w = Some b /\ num_features b = 20%nat.

(** The next invocation on [w] draws the feature vector [xs] and the
    Gaussian sample [n]. *)
Definition draws (w : World) (xs : ndarray) (n : R) : Prop :=
  fst (uniform (fresh_rng w) 20) = xs /\
  fst (normal (snd (uniform (fresh_rng w) 20)) 1) = [n].

(** The handler invoked on [w] reaches its [return] with the reference
    value [t] in the variable [true]. *)
Definition reference_of (w : World) (t : R) : Prop :=
  exists l w', hello_model_locals w = (Ok l, w') /\ true_ l = [t].

(** The events a computation adds to the trace of [w]. *)
Definition events_of {A} (m : World -> A * World) (w : World) : list Event :=
  skipn (length (trace w)) (trace (snd (m w))).

Definition is_predict (e : Event) : bool :=
  match e with EvPredict _ => true | _ => false end.

Definition is_print (e : Event) : bool :=
  match e with EvPrint _ => true | _ => false end.

(** The world after a computation that only added [evs] to the trace, and
    the world after one that also took a generator from the entropy
    source. *)
Definition logged (w : World) (evs : list Event) : World :=
  mkWorld (files w) (entropy w) (entropy_pos w) (stdout w) (trace w ++ evs).

Definition seeded (w : World) (evs : list Event) : World :=
  mkWorld (files w) (entropy w) (S (entropy_pos w)) (stdout w)
          (trace w ++ evs).

(** A feature vector in the sense of the specification. *)
Definition feature_vector (row : list R) : Prop :=
  length row = 20%nat /\ Forall (fun v => 0 <= v < 1) row.

End Scripts.

(** ** A small instance of the libraries, to run the scripts on *)

Module Demo.

(** Two "model files": one ensemble over 20 features, one over 5.  The value
    of an ensemble on a row is the sum of the row. *)
Definition demo_parse (s : string) : option nat :=
  if String.eqb s "friedman20" then Some 20%nat
  else if String.eqb s "tiny5" then Some 5%nat
  else None.

Definition demo_xgb : XGBoostLib :=
  {| Booster := nat;
     parse_model := demo_parse;
     num_features := fun b => b;
     predict_row := fun _ row => fold_right Rplus 0 row |}.

(** A generator that replays a given list of 64-bit words (then zeros) and
    always returns the same Gaussian sample. *)
Definition demo_next (g : list N * R) : N * (list N * R) :=
  match fst g with
  | [] => (0%N, g)
  | k :: ks => (k, (ks, snd g))
  end.

Definition demo_str (a : ndarray) : string :=
  ("[" ++ String.concat " " (map (fun _ => "#"%string) a) ++ "]")%string.

Definition demo_np : NumPyLib :=
  {| BitGen := list N * R;
     next_uint64 := demo_next;
     next_gauss := fun g => (snd g, g);
     array_str := demo_str |}.

(** The word whose top 53 bits stand for one half. *)
Definition half : N := 9223372036854775808%N.

(** A world whose only file is the model file (when [contents] is given) and
    whose entropy source always hands out the same generator. *)
Definition demo_world (contents : option string) (raw : list N) (z : R)
  : @World demo_np :=
  mkWorld (np := demo_np)
          (fun p => if String.eqb p "smallmodel.txt" then contents else None)
          (fun _ => (raw, z)) 0 EmptyString [].

(** The value [rng.uniform()] makes of the 64-bit word [k]. *)
Definition unit_of (k : N) : R :=
  0 + (1 - 0) * (IZR (Z.of_N (N.shiftr (k mod 2 ^ 64) 11)) / 9007199254740992).

(** Worlds to run the scripts on: with a 20-feature model and draws that
    are all one half, without and with noise; the same two with the last
    fifteen draws zero; with a 5-feature model; without a model file. *)
Definition w_half : @World demo_np :=
  demo_world (Some "friedman20"%string) (repeat half 20) 0.

Definition w_noisy : @World demo_np :=
  demo_world (Some "friedman20"%string) (repeat half 20) 2.

Definition w_tail : @World demo_np :=
  demo_world (Some "friedman20"%string) (repeat half 5) 0.

Definition w_tiny : @World demo_np :=
  demo_world (Some "tiny5"%string) (repeat half 20) 0.

Definition w_noisy_tail : @World demo_np :=
  demo_world (Some "friedman20"%string) (repeat half 5) 2.

Definition w_missing : @World demo_np := demo_world None [] 0.

End Demo.

(** * Properties *)

Section Facts.

Context {xgb : XGBoostLib} {np : NumPyLib}.

(** ** numpy's draws *)

Lemma next_double_range (g : BitGen) : 0 <= fst (next_double g) < 1.
Proof.
  unfold next_double. destruct (next_uint64 g) as [k g']. cbn [fst].
  set (m := N.shiftr (k mod 2 ^ 64) 11).
  assert (Hm : (m < 9007199254740992)%N).
  { subst m. rewrite N.shiftr_div_pow2.
    apply N.Div0.div_lt_upper_bound.
    change (2 ^ 11 * 9007199254740992)%N with (2 ^ 64)%N.
    apply N.mod_lt. discriminate. }
  assert (H0 : (0 <= Z.of_N m)%Z) by apply N2Z.is_nonneg.
  assert (H1 : (Z.of_N m < 9007199254740992)%Z) by lia.
  apply IZR_le in H0. apply IZR_lt in H1.
  clearbody m. revert H0 H1. generalize (IZR (Z.of_N m)). intros z H0 H1.
  split.
  - apply Rmult_le_pos; [exact H0 | left; apply Rinv_0_lt_compat; lra].
  - apply Rmult_lt_reg_r with 9007199254740992; [lra|].
    unfold Rdiv. rewrite Rmult_assoc, Rinv_l by lra. lra.
Qed.

Lemma uniform_draw_range (g : BitGen) : 0 <= fst (uniform_draw 0 1 g) < 1.
Proof.
  unfold uniform_draw. pose proof (next_double_range g) as H.
  destruct (next_double g) as [d g']. simpl in *. lra.
Qed.

Lemma random_fill_length draw n g :
  length (fst (random_fill draw n g)) = n.
Proof.
  revert g. induction n as [|n IH]; intros g; simpl; [reflexivity|].
  destruct (draw g) as [v g1]. specialize (IH g1).
  destruct (random_fill draw n g1) as [vs g2]. simpl in *. now f_equal.
Qed.

Lemma random_fill_Forall (P : R -> Prop) draw
  (Hdraw : forall g, P (fst (draw g))) n g :
  Forall P (fst (random_fill draw n g)).
Proof.
  revert g. induction n as [|n IH]; intros g; simpl; [constructor|].
  pose proof (Hdraw g) as Hv. destruct (draw g) as [v g1]. specialize (IH g1).
  destruct (random_fill draw n g1) as [vs g2]. simpl in *. now constructor.
Qed.

Lemma uniform_feature_vector g : feature_vector (fst (uniform g 20)).
Proof.
  split.
  - apply random_fill_length.
  - apply random_fill_Forall. apply uniform_draw_range.
Qed.

Lemma uniform2_rows g rows cols :
  length (fst (uniform2 g rows cols)) = rows.
Proof.
  revert g. induction rows as [|r IH]; intros g; simpl; [reflexivity|].
  destruct (uniform g cols) as [row g1]. specialize (IH g1).
  destruct (uniform2 g1 r cols) as [rest g2]. simpl in *. now f_equal.
Qed.

Lemma uniform2_feature_vectors g rows :
  Forall feature_vector (fst (uniform2 g rows 20)).
Proof.
  revert g. induction rows as [|r IH]; intros g; simpl; [constructor|].
  pose proof (uniform_feature_vector g) as Hrow.
  destruct (uniform g 20) as [row g1]. specialize (IH g1).
  destruct (uniform2 g1 r 20) as [rest g2]. simpl in *. now constructor.
Qed.

Lemma normal_one g : exists n, fst (normal g 1) = [n].
Proof.
  unfold normal. simpl. destruct (normal_draw 0 1 g) as [v g1]. now exists v.
Qed.

End Facts.

Section Runs.

Context {xgb : XGBoostLib} {np : NumPyLib}.

Lemma skipn_trace (l evs : list Event) : skipn (length l) (l ++ evs) = evs.
Proof. induction l as [|e l IH]; simpl; auto. Qed.

Lemma events_of_logged {A} (m : World -> A * World) w r evs :
  m w = (r, logged w evs) -> events_of m w = evs.
Proof. intros E. unfold events_of. rewrite E. apply skipn_trace. Qed.

Lemma events_of_seeded {A} (m : World -> A * World) w r evs :
  m w = (r, seeded w evs) -> events_of m w = evs.
Proof. intros E. unfold events_of. rewrite E. apply skipn_trace. Qed.

Lemma list20 (l : list R) :
  length l = 20%nat ->
  exists a0 a1 a2 a3 a4 rest, l = a0 :: a1 :: a2 :: a3 :: a4 :: rest
                              /\ length rest = 15%nat.
Proof.
  intros H.
  destruct l as [|a0 [|a1 [|a2 [|a3 [|a4 rest]]]]]; try discriminate.
  exists a0, a1, a2, a3, a4, rest. split; [reflexivity|].
  simpl in H. lia.
Qed.

(** *** [hello_model], up to the [return] *)

Ltac run_ops :=
  unfold load_model, default_rng, predict, print, getitem, array_sub, log,
    bind, ret, raise, newaxis, XGBRegressor, logged, seeded, fresh_rng;
  cbn beta iota delta [files entropy entropy_pos stdout trace fst snd].

Ltac same_world :=
  cbn beta iota delta [files entropy entropy_pos stdout trace fst snd];
  rewrite <- ?app_assoc; reflexivity.

Ltac draw20 w xs g1 Hlen :=
  cbn beta iota delta [files entropy entropy_pos stdout trace fst snd];
  pose proof (random_fill_length (uniform_draw 0 1) 20
                (entropy w (entropy_pos w))) as Hlen;
  fold (uniform (entropy w (entropy_pos w)) 20) in Hlen;
  destruct (uniform (entropy w (entropy_pos w)) 20) as [xs g1];
  cbn [fst snd] in *.

Lemma hello_model_locals_no_model w :
  stored_model w = None ->
  hello_model_locals w
  = (Raise XGBoostError, logged w [EvLoad "smallmodel.txt"]).
Proof.
  intros H. unfold stored_model in H.
  unfold hello_model_locals. run_ops.
  destruct (files w "smallmodel.txt") as [c|]; [rewrite H|]; reflexivity.
Qed.

Lemma hello_model_locals_ok w b :
  stored_model w = Some b ->
  num_features b = 20%nat ->
  let xs := fst (uniform (fresh_rng w) 20) in
  let n := nth 0 (fst (normal (snd (uniform (fresh_rng w) 20)) 1)) 0 in
  hello_model_locals w
  = (Ok (mkLocals xs [predict_row b xs]
           [5 * (2 * sin (PI * nth 0 xs 0 * nth 1 xs 0)
                 + (2 * nth 2 xs 0 - 1) ^ 2 + 2 * nth 3 xs 0 + nth 4 xs 0)
            + 0.1 * n]),
     seeded w [EvLoad "smallmodel.txt"; EvEntropy; EvPredict [xs]]).
Proof.
  intros H Hnf xs n. subst xs n. unfold stored_model in H.
  unfold hello_model_locals. run_ops.
  destruct (files w "smallmodel.txt") as [c|]; [|discriminate]. rewrite H.
  draw20 w xs g1 Hlen.
  destruct (list20 _ Hlen) as (a0 & a1 & a2 & a3 & a4 & rest & -> & Hrest).
  cbn [forallb]. rewrite Hnf, Hlen. cbn [Nat.eqb andb nth_error nth].
  unfold normal. cbn [random_fill].
  destruct (normal_draw 0 1 g1) as [v g2].
  cbn [fst nth scalar_mul scalar_add map]. same_world.
Qed.

Lemma hello_model_locals_shape w b :
  stored_model w = Some b ->
  num_features b <> 20%nat ->
  let xs := fst (uniform (fresh_rng w) 20) in
  hello_model_locals w
  = (Raise ShapeMismatch,
     seeded w [EvLoad "smallmodel.txt"; EvEntropy; EvPredict [xs]]).
Proof.
  intros H Hnf xs. subst xs. unfold stored_model in H.
  unfold hello_model_locals. run_ops.
  destruct (files w "smallmodel.txt") as [c|]; [|discriminate]. rewrite H.
  draw20 w xs g1 Hlen.
  cbn [forallb]. rewrite Hlen.
  destruct (Nat.eqb_spec 20 (num_features b)) as [E|E]; [congruence|].
  cbn [andb]. same_world.
Qed.

(** *** The [return] statement and the Flask wrapper *)

Lemma hello_model_return w l w' p t :
  hello_model_locals w = (Ok l, w') ->
  pred l = [p] ->
  true_ l = [t] ->
  hello_model w
  = (Ok (render (array_str [p]) (array_str [(t - p) ^ 2])), w').
Proof.
  intros E Hp Ht. unfold hello_model, bind. rewrite E, Hp, Ht. reflexivity.
Qed.

Lemma hello_model_raise w e w' :
  hello_model_locals w = (Raise e, w') -> hello_model w = (Raise e, w').
Proof. intros E. unfold hello_model, bind. now rewrite E. Qed.

Lemma get_root_ok w s w' :
  hello_model w = (Ok s, w') -> get_root w = (mkResponse 200 s, w').
Proof. intros E. unfold get_root. now rewrite E. Qed.

Lemma get_root_raise w e w' :
  hello_model w = (Raise e, w') ->
  get_root w = (mkResponse 500 internal_server_error, w').
Proof. intros E. unfold get_root. now rewrite E. Qed.

(** *** [fake_deploy] *)

Lemma check_features_ok (X : matrix) n :
  Forall (fun row => length row = n) X ->
  forallb (fun row => Nat.eqb (length row) n) X = true.
Proof.
  induction 1 as [|row X Hrow _ IH]; simpl; [reflexivity|].
  rewrite IH, Hrow, Nat.eqb_refl. reflexivity.
Qed.

Lemma check_features_bad (X : matrix) n m :
  Forall (fun row => length row = m) X -> m <> n -> X <> [] ->
  forallb (fun row => Nat.eqb (length row) n) X = false.
Proof.
  intros HX Hmn Hne. destruct HX as [|row X Hrow _]; [congruence|].
  simpl. rewrite Hrow.
  destruct (Nat.eqb_spec m n); [contradiction | reflexivity].
Qed.

Lemma feature_vectors_length (X : matrix) :
  Forall feature_vector X -> Forall (fun row => length row = 20%nat) X.
Proof. apply Forall_impl. now intros row [H _]. Qed.

Ltac draw10x20 w X g1 Hrows Hfv :=
  cbn beta iota delta [files entropy entropy_pos stdout trace fst snd];
  pose proof (uniform2_rows (entropy w (entropy_pos w)) 10 20) as Hrows;
  pose proof (uniform2_feature_vectors (entropy w (entropy_pos w)) 10) as Hfv;
  destruct (uniform2 (entropy w (entropy_pos w)) 10 20) as [X g1];
  cbn [fst snd] in *.

Lemma fake_deploy_no_model w :
  stored_model w = None ->
  fake_deploy w = (Raise XGBoostError, logged w [EvLoad "smallmodel.txt"]).
Proof.
  intros H. unfold stored_model in H.
  unfold fake_deploy. run_ops.
  destruct (files w "smallmodel.txt") as [c|]; [rewrite H|]; reflexivity.
Qed.

Lemma fake_deploy_ok w b :
  stored_model w = Some b ->
  num_features b = 20%nat ->
  let X := fst (uniform2 (fresh_rng w) 10 20) in
  let p := map (predict_row b) X in
  fake_deploy w
  = (Ok tt,
     mkWorld (files w) (entropy w) (S (entropy_pos w))
             (stdout w ++ array_str p ++ newline)%string
             (trace w ++ [EvLoad "smallmodel.txt"; EvEntropy; EvPredict X;
                          EvPrint (array_str p)])).
Proof.
  intros H Hnf X p. subst X p. unfold stored_model in H.
  unfold fake_deploy. run_ops.
  destruct (files w "smallmodel.txt") as [c|]; [|discriminate]. rewrite H.
  draw10x20 w X g1 Hrows Hfv.
  rewrite Hnf, (check_features_ok (feature_vectors_length Hfv)).
  same_world.
Qed.

Lemma fake_deploy_shape w b :
  stored_model w = Some b ->
  num_features b <> 20%nat ->
  let X := fst (uniform2 (fresh_rng w) 10 20) in
  fake_deploy w
  = (Raise ShapeMismatch,
     seeded w [EvLoad "smallmodel.txt"; EvEntropy; EvPredict X]).
Proof.
  intros H Hnf X. subst X. unfold stored_model in H.
  unfold fake_deploy. run_ops.
  destruct (files w "smallmodel.txt") as [c|]; [|discriminate]. rewrite H.
  draw10x20 w X g1 Hrows Hfv.
  rewrite (check_features_bad (n := num_features b)
             (feature_vectors_length Hfv)) by
    (try congruence; intros ->; discriminate).
  same_world.
Qed.

End Runs.

Section Claims.

Context {xgb : XGBoostLib} {np : NumPyLib}.

Lemma reference_of_draws w b xs n :
  valid_model w b -> draws w xs n ->
  reference_of w
    (5 * (2 * sin (PI * nth 0 xs 0 * nth 1 xs 0)
          + (2 * nth 2 xs 0 - 1) ^ 2 + 2 * nth 3 xs 0 + nth 4 xs 0)
     + 0.1 * n).
Proof.
  intros [Hb Hnf] [Hx Hn].
  pose proof (hello_model_locals_ok w Hb Hnf) as E. cbv zeta in E.
  rewrite Hn, Hx in E. cbn [nth] in E.
  eexists _, _. split; [exact E | reflexivity].
Qed.

(** C1. Whatever 20-component vector [x0 :: x1 :: x2 :: x3 :: x4 :: rest]
    and Gaussian sample [n] an invocation of the handler draws, the
    reference value it computes is
    [5 * (2*sin(pi*x0*x1) + (2*x2-1)^2 + 2*x3 + x4) + 0.1*n]. *)
Theorem reference_value_formula w b x0 x1 x2 x3 x4 rest n :
  valid_model w b ->
  draws w (x0 :: x1 :: x2 :: x3 :: x4 :: rest) n ->
  length (x0 :: x1 :: x2 :: x3 :: x4 :: rest) = 20%nat /\
  reference_of w
    (5 * (2 * sin (PI * x0 * x1) + (2 * x2 - 1) ^ 2 + 2 * x3 + x4) + 0.1 * n).
Proof.
  intros Hv Hd. split.
  - destruct Hd as [<- _]. apply random_fill_length.
  - exact (reference_of_draws Hv Hd).
Qed.

Lemma reference_of_unique w t1 t2 :
  reference_of w t1 -> reference_of w t2 -> t1 = t2.
Proof.
  intros (l1 & w1 & E1 & H1) (l2 & w2 & E2 & H2).
  rewrite E1 in E2. injection E2 as <- _. congruence.
Qed.

(** The square root of two to five decimals. *)
Lemma sqrt2_bounds : 1.41421 < sqrt 2 < 1.41422.
Proof.
  assert (Hs : sqrt 2 * sqrt 2 = 2) by (apply sqrt_sqrt; lra).
  assert (H0 : 0 <= sqrt 2) by apply sqrt_pos.
  split; nra.
Qed.

Lemma sin_quarter_pi : sin (PI * 0.25) = sqrt 2 / 2.
Proof.
  replace (PI * 0.25) with (PI / 4) by lra.
  rewrite sin_PI4.
  assert (Hs : sqrt 2 * sqrt 2 = 2) by (apply sqrt_sqrt; lra).
  assert (H0 : sqrt 2 <> 0) by (intros E; rewrite E in Hs; lra).
  field_simplify_eq; [lra | exact H0].
Qed.

(** C3. With zero noise the reference value is determined by [x0..x4]:
    two invocations that draw the same first five components compute the
    same value, whatever the other fifteen are.  When the five are all 0.5
    the value is [5 * (2*sin(pi*0.25) + 0 + 1 + 0.5)], which lies within
    0.0001 of 14.571. *)
Theorem reference_value_at_half :
  (forall w1 w2 b1 b2 x0 x1 x2 x3 x4 rest1 rest2,
      valid_model w1 b1 -> valid_model w2 b2 ->
      draws w1 (x0 :: x1 :: x2 :: x3 :: x4 :: rest1) 0 ->
      draws w2 (x0 :: x1 :: x2 :: x3 :: x4 :: rest2) 0 ->
      exists t, reference_of w1 t /\ reference_of w2 t) /\
  (forall w b rest,
      valid_model w b ->
      draws w (0.5 :: 0.5 :: 0.5 :: 0.5 :: 0.5 :: rest) 0 ->
      reference_of w (5 * (2 * sin (PI * 0.25) + 0 + 1 + 0.5))) /\
  Rabs (5 * (2 * sin (PI * 0.25) + 0 + 1 + 0.5) - 14.571) < 0.0001.
Proof.
  split; [|split].
  - intros w1 w2 b1 b2 x0 x1 x2 x3 x4 rest1 rest2 Hv1 Hv2 Hd1 Hd2.
    eexists. split.
    + exact (reference_of_draws Hv1 Hd1).
    + exact (reference_of_draws Hv2 Hd2).
  - intros w b rest Hv Hd.
    pose proof (reference_of_draws Hv Hd) as H. cbn [nth] in H.
    replace (5 * (2 * sin (PI * 0.25) + 0 + 1 + 0.5))
      with (5 * (2 * sin (PI * 0.5 * 0.5) + (2 * 0.5 - 1) ^ 2 + 2 * 0.5 + 0.5)
            + 0.1 * 0); [exact H|].
    replace (PI * 0.5 * 0.5) with (PI * 0.25) by lra. lra.
  - rewrite sin_quarter_pi. pose proof sqrt2_bounds as Hs.
    apply Rabs_def1; lra.
Qed.

(** C8. The reference value depends on the feature vector only through its
    first five components: two invocations that draw vectors agreeing on
    [x0..x4] and the same Gaussian sample compute the same reference
    value, whatever the remaining components and the loaded model are. *)
Theorem reference_depends_on_first_five
  w1 w2 b1 b2 x0 x1 x2 x3 x4 rest1 rest2 n :
  valid_model w1 b1 -> valid_model w2 b2 ->
  draws w1 (x0 :: x1 :: x2 :: x3 :: x4 :: rest1) n ->
  draws w2 (x0 :: x1 :: x2 :: x3 :: x4 :: rest2) n ->
  length rest1 = 15%nat /\ length rest2 = 15%nat /\
  exists t, reference_of w1 t /\ reference_of w2 t.
Proof.
  intros Hv1 Hv2 Hd1 Hd2.
  assert (Hlen : forall w xs m, draws w xs m -> length xs = 20%nat).
  { intros w xs m [<- _]. apply random_fill_length. }
  apply Hlen in Hd1 as H1. apply Hlen in Hd2 as H2. simpl in H1, H2.
  repeat split; try lia.
  eexists. split.
  - exact (reference_of_draws Hv1 Hd1).
  - exact (reference_of_draws Hv2 Hd2).
Qed.

(** The three ways an invocation of the handler can go. *)
Lemma hello_model_cases w :
  (stored_model w = None /\
   hello_model w = (Raise XGBoostError, logged w [EvLoad "smallmodel.txt"]))
  \/
  (exists b, stored_model w = Some b /\ num_features b <> 20%nat /\
   hello_model w
   = (Raise ShapeMismatch,
      seeded w [EvLoad "smallmodel.txt"; EvEntropy;
                EvPredict [fst (uniform (fresh_rng w) 20)]]))
  \/
  (exists b l t, valid_model w b /\
   hello_model_locals w
   = (Ok l, seeded w [EvLoad "smallmodel.txt"; EvEntropy;
                      EvPredict [fst (uniform (fresh_rng w) 20)]]) /\
   x l = fst (uniform (fresh_rng w) 20) /\
   pred l = [predict_row b (x l)] /\
   true_ l = [t] /\
   hello_model w
   = (Ok (render (array_str [predict_row b (x l)])
                 (array_str [(t - predict_row b (x l)) ^ 2])),
      seeded w [EvLoad "smallmodel.txt"; EvEntropy;
                EvPredict [fst (uniform (fresh_rng w) 20)]])).
Proof.
  destruct (stored_model w) as [b|] eqn:Hb.
  - destruct (Nat.eq_dec (num_features b) 20) as [Hnf|Hnf].
    + right. right.
      pose proof (hello_model_locals_ok w Hb Hnf) as E. cbv zeta in E.
      eexists b, _, _. split; [now split|].
      split; [exact E|]. cbn [x pred true_].
      repeat split. eapply hello_model_return; [exact E | reflexivity..].
    + right. left. exists b. repeat split; auto.
      apply hello_model_raise. exact (hello_model_locals_shape w Hb Hnf).
  - left. split; [reflexivity|].
    apply hello_model_raise. now apply hello_model_locals_no_model.
Qed.

(** A successful run, spelled out in terms of the model and the draws. *)
Lemma hello_model_ok_draws w b xs n :
  valid_model w b -> draws w xs n ->
  exists l,
    hello_model_locals w
    = (Ok l, seeded w [EvLoad "smallmodel.txt"; EvEntropy; EvPredict [xs]]) /\
    x l = xs /\
    pred l = [predict_row b xs] /\
    true_ l = [5 * (2 * sin (PI * nth 0 xs 0 * nth 1 xs 0)
                    + (2 * nth 2 xs 0 - 1) ^ 2 + 2 * nth 3 xs 0 + nth 4 xs 0)
               + 0.1 * n] /\
    hello_model w
    = (Ok (render
             (array_str [predict_row b xs])
             (array_str
                [(5 * (2 * sin (PI * nth 0 xs 0 * nth 1 xs 0)
                       + (2 * nth 2 xs 0 - 1) ^ 2 + 2 * nth 3 xs 0
                       + nth 4 xs 0)
                  + 0.1 * n - predict_row b xs) ^ 2])),
       seeded w [EvLoad "smallmodel.txt"; EvEntropy; EvPredict [xs]]).
Proof.
  intros [Hb Hnf] [Hx Hn].
  pose proof (hello_model_locals_ok w Hb Hnf) as E. cbv zeta in E.
  rewrite Hn, Hx in E. cbn [nth] in E.
  eexists. split; [exact E|]. cbn [x pred true_]. repeat split.
  eapply hello_model_return; [exact E | reflexivity..].
Qed.

(** The draws of an invocation, named. *)
Lemma draws_exist w :
  exists x0 x1 x2 x3 x4 rest n,
    draws w (x0 :: x1 :: x2 :: x3 :: x4 :: rest) n.
Proof.
  destruct (normal_one (snd (uniform (fresh_rng w) 20))) as [n Hn].
  destruct (list20 _ (random_fill_length (uniform_draw 0 1) 20 (fresh_rng w)))
    as (x0 & x1 & x2 & x3 & x4 & rest & Hx & _).
  exists x0, x1, x2, x3, x4, rest, n. split; [exact Hx | exact Hn].
Qed.


(** C2. With a valid model file, a [GET /] is answered with status 200 and
    the body [Prediction: <pred>\n Error: <err>\n n.b. model suboptimal to
    save time], where [<pred>] renders the model's prediction on the vector
    the invocation drew and [<err>] renders the square of the difference
    between the reference value of the formula and that prediction. *)
Theorem get_root_ok_template w b x0 x1 x2 x3 x4 rest n :
  valid_model w b ->
  draws w (x0 :: x1 :: x2 :: x3 :: x4 :: rest) n ->
  fst (get_root w)
  = mkResponse 200
      ("Prediction: "
       ++ array_str [predict_row b (x0 :: x1 :: x2 :: x3 :: x4 :: rest)]
       ++ newline ++
       " Error: "
       ++ array_str
            [(5 * (2 * sin (PI * x0 * x1) + (2 * x2 - 1) ^ 2 + 2 * x3 + x4)
              + 0.1 * n
              - predict_row b (x0 :: x1 :: x2 :: x3 :: x4 :: rest)) ^ 2]
       ++ newline ++
       " n.b. model suboptimal to save time")%string.
Proof.
  intros Hv Hd.
  destruct (hello_model_ok_draws Hv Hd) as (l & _ & _ & _ & _ & Eh).
  cbn [nth] in Eh. rewrite (get_root_ok _ Eh). reflexivity.
Qed.

(** The events of an invocation of the handler. *)
Lemma hello_model_events w :
  events_of hello_model w
  = match stored_model w with
    | None => [EvLoad "smallmodel.txt"]
    | Some _ => [EvLoad "smallmodel.txt"; EvEntropy;
                 EvPredict [fst (uniform (fresh_rng w) 20)]]
    end.
Proof.
  destruct (hello_model_cases w)
    as [[Hb E]|[(b & Hb & _ & E)|(b & l & t & [Hb _] & _ & _ & _ & _ & E)]];
    rewrite Hb.
  - eapply events_of_logged; exact E.
  - eapply events_of_seeded; exact E.
  - eapply events_of_seeded; exact E.
Qed.

Lemma hello_model_frame w :
  files (snd (hello_model w)) = files w /\
  entropy (snd (hello_model w)) = entropy w /\
  stdout (snd (hello_model w)) = stdout w.
Proof.
  destruct (hello_model_cases w)
    as [[_ E]|[(b & _ & _ & E)|(b & l & t & _ & _ & _ & _ & _ & E)]];
    rewrite E; repeat split.
Qed.

Lemma get_root_world w : snd (get_root w) = snd (hello_model w).
Proof. unfold get_root. now destruct (hello_model w) as [[s|e] w']. Qed.

Lemma python_main_world script w :
  snd (python_main script w) = snd (script w).
Proof. unfold python_main. now destruct (script w) as [[u|e] w']. Qed.

(** The events of a run of the batch script. *)
Lemma fake_deploy_events w :
  events_of fake_deploy w = [EvLoad "smallmodel.txt"] \/
  exists tl,
    events_of fake_deploy w
    = EvLoad "smallmodel.txt" :: EvEntropy
      :: EvPredict (fst (uniform2 (fresh_rng w) 10 20)) :: tl
    /\ existsb is_predict tl = false.
Proof.
  destruct (stored_model w) as [b|] eqn:Hb.
  - right. destruct (Nat.eq_dec (num_features b) 20) as [Hnf|Hnf].
    + pose proof (fake_deploy_ok w Hb Hnf) as E. cbv zeta in E.
      eexists. unfold events_of. rewrite E. cbn [snd trace].
      rewrite skipn_trace. split; reflexivity.
    + pose proof (fake_deploy_shape w Hb Hnf) as E. cbv zeta in E.
      exists []. split; [eapply events_of_seeded; exact E | reflexivity].
  - left. eapply events_of_logged. now apply fake_deploy_no_model.
Qed.

(** C4. With a valid model file, a run of the batch script ends with exit
    status 0 after one call of [predict], on the 10-row matrix it drew, and
    one [print] of the resulting array, which holds exactly 10 real
    numbers. *)
Theorem batch_predicts_once_prints_ten w b :
  valid_model w b ->
  exists X p,
    X = fst (uniform2 (fresh_rng w) 10 20) /\
    p = map (predict_row b) X /\
    length p = 10%nat /\
    fst (python_main fake_deploy w) = 0%nat /\
    stdout (snd (python_main fake_deploy w))
    = (stdout w ++ array_str p ++ newline)%string /\
    events_of fake_deploy w
    = [EvLoad "smallmodel.txt"; EvEntropy; EvPredict X;
       EvPrint (array_str p)] /\
    length (filter is_predict (events_of fake_deploy w)) = 1%nat /\
    length (filter is_print (events_of fake_deploy w)) = 1%nat.
Proof.
  intros [Hb Hnf].
  pose proof (fake_deploy_ok w Hb Hnf) as E. cbv zeta in E.
  assert (Hev : events_of fake_deploy w
                = [EvLoad "smallmodel.txt"; EvEntropy;
                   EvPredict (fst (uniform2 (fresh_rng w) 10 20));
                   EvPrint (array_str (map (predict_row b)
                              (fst (uniform2 (fresh_rng w) 10 20))))]).
  { unfold events_of. rewrite E. cbn [snd trace]. apply skipn_trace. }
  eexists _, _. split; [reflexivity|]. split; [reflexivity|].
  split; [|split; [|split; [|split; [|split]]]].
  - rewrite length_map. apply uniform2_rows.
  - unfold python_main. now rewrite E.
  - rewrite python_main_world, E. reflexivity.
  - exact Hev.
  - rewrite Hev. reflexivity.
  - rewrite Hev. reflexivity.
Qed.

Lemma get_root_events w : events_of get_root w = events_of hello_model w.
Proof. unfold events_of. now rewrite get_root_world. Qed.

Lemma predict_wrong_shape b (X : matrix) w :
  Exists (fun row => length row <> num_features b) X ->
  fst (predict (Some b) X w) = Raise ShapeMismatch.
Proof.
  intros HX. unfold predict, bind, log. cbn beta iota.
  replace (forallb (fun row => Nat.eqb (length row) (num_features b)) X)
    with false; [reflexivity|].
  symmetry. apply not_true_is_false. intros Hall.
  rewrite forallb_forall in Hall. apply Exists_exists in HX.
  destruct HX as (row & Hin & Hlen). apply Hall in Hin.
  now apply Nat.eqb_eq in Hin.
Qed.

(** C5. Every matrix passed to [predict] is made of 20-component rows with
    components in [0,1): the handler passes the single vector it drew, the
    batch script the 10 vectors it drew.  A loaded 20-feature model refuses
    any matrix with a row of another length with a shape-mismatch error. *)
Theorem predict_receives_feature_vectors :
  (forall w X,
      In (EvPredict X) (events_of hello_model w) ->
      X = [fst (uniform (fresh_rng w) 20)] /\
      length X = 1%nat /\ Forall feature_vector X) /\
  (forall w X,
      In (EvPredict X) (events_of fake_deploy w) ->
      X = fst (uniform2 (fresh_rng w) 10 20) /\
      length X = 10%nat /\ Forall feature_vector X) /\
  (forall w b,
      valid_model w b ->
      In (EvPredict [fst (uniform (fresh_rng w) 20)])
         (events_of hello_model w) /\
      In (EvPredict (fst (uniform2 (fresh_rng w) 10 20)))
         (events_of fake_deploy w)) /\
  (forall w b X,
      num_features b = 20%nat ->
      Exists (fun row => length row <> 20%nat) X ->
      fst (predict (Some b) X w) = Raise ShapeMismatch).
Proof.
  split; [|split; [|split]].
  - intros w X Hin. rewrite hello_model_events in Hin.
    assert (HX : X = [fst (uniform (fresh_rng w) 20)]).
    { destruct (stored_model w); simpl in Hin;
        repeat (destruct Hin as [Hin|Hin]; try discriminate; try contradiction);
        now injection Hin as <-. }
    subst X. repeat split.
    constructor; [apply uniform_feature_vector | constructor].
  - intros w X Hin.
    assert (HX : X = fst (uniform2 (fresh_rng w) 10 20)).
    { destruct (fake_deploy_events w) as [E|(tl & E & Htl)]; rewrite E in Hin.
      - destruct Hin as [Hin|[]]. discriminate.
      - destruct Hin as [Hin|[Hin|[Hin|Hin]]]; try discriminate.
        + now injection Hin as <-.
        + exfalso. assert (Hex : existsb is_predict tl = true).
          { apply existsb_exists. now exists (EvPredict X). }
          congruence. }
    subst X. split; [reflexivity|]. split.
    + apply uniform2_rows.
    + apply uniform2_feature_vectors.
  - intros w b [Hb Hnf]. split.
    + rewrite hello_model_events, Hb. simpl. auto.
    + pose proof (fake_deploy_ok w Hb Hnf) as E. cbv zeta in E.
      unfold events_of. rewrite E. cbn [snd trace]. rewrite skipn_trace.
      simpl. auto.
  - intros w b X Hnf HX. apply predict_wrong_shape. now rewrite Hnf.
Qed.

(** C6. When the model file cannot be read, a [GET /] is answered with
    status 500 and Flask's fixed error page, and the batch script exits
    with status 1 having printed nothing; in both cases the failed load is
    the only thing that happened. *)
Theorem missing_model_fails w :
  files w "smallmodel.txt" = None ->
  status (fst (get_root w)) = 500%nat /\
  body (fst (get_root w)) = internal_server_error /\
  events_of get_root w = [EvLoad "smallmodel.txt"] /\
  fst (python_main fake_deploy w) = 1%nat /\
  stdout (snd (python_main fake_deploy w)) = stdout w /\
  events_of (python_main fake_deploy) w = [EvLoad "smallmodel.txt"].
Proof.
  intros Hf.
  assert (Hb : stored_model w = None) by (unfold stored_model; now rewrite Hf).
  assert (Eg : get_root w
               = (mkResponse 500 internal_server_error,
                  logged w [EvLoad "smallmodel.txt"])).
  { apply get_root_raise with (e := XGBoostError). apply hello_model_raise.
    now apply hello_model_locals_no_model. }
  pose proof (fake_deploy_no_model w Hb) as Ed.
  assert (Ep : python_main fake_deploy w
               = (1%nat, logged w [EvLoad "smallmodel.txt"])).
  { unfold python_main. now rewrite Ed. }
  rewrite Eg, Ep. repeat split.
  - eapply events_of_logged; exact Eg.
  - eapply events_of_logged; exact Ep.
Qed.

Lemma stored_model_ext w1 w2 :
  files w1 "smallmodel.txt" = files w2 "smallmodel.txt" ->
  stored_model w1 = stored_model w2.
Proof. intros H. unfold stored_model. now rewrite H. Qed.

(** The outcome of the handler, without the world it leaves. *)
Lemma hello_model_result_ext w1 w2 :
  stored_model w1 = stored_model w2 ->
  fresh_rng w1 = fresh_rng w2 ->
  fst (hello_model w1) = fst (hello_model w2).
Proof.
  intros Hb Hg.
  destruct (hello_model_cases w1)
    as [[H1 E1]|[(b1 & H1 & N1 & E1)
                |(b1 & l1 & t1 & [H1 N1] & L1 & X1 & _ & T1 & E1)]];
  destruct (hello_model_cases w2)
    as [[H2 E2]|[(b2 & H2 & N2 & E2)
                |(b2 & l2 & t2 & [H2 N2] & L2 & X2 & _ & T2 & E2)]];
  rewrite E1, E2; cbn [fst]; try reflexivity;
  rewrite H1, H2 in Hb; try discriminate; injection Hb as ->;
  try contradiction.
  pose proof (hello_model_locals_ok w1 H1 N1) as K1.
  pose proof (hello_model_locals_ok w2 H2 N2) as K2.
  cbv zeta in K1, K2. rewrite Hg in K1.
  rewrite L1 in K1. rewrite L2 in K2.
  injection K1 as ->. injection K2 as ->.
  cbn [true_ x] in *. congruence.
Qed.

(** C7. The answer to a request is determined by the contents of the model
    file and by the generator the request obtains: two invocations that
    find the same file contents and draw from the same generator state give
    the same response and make the same calls, whatever else differs
    between the two worlds (earlier requests included); and each invocation
    starts by loading the model from [smallmodel.txt]. *)
Theorem requests_share_no_state w1 w2 :
  files w1 "smallmodel.txt" = files w2 "smallmodel.txt" ->
  fresh_rng w1 = fresh_rng w2 ->
  fst (get_root w1) = fst (get_root w2) /\
  events_of get_root w1 = events_of get_root w2 /\
  exists tl, events_of get_root w1 = EvLoad "smallmodel.txt" :: tl.
Proof.
  intros Hf Hg. apply stored_model_ext in Hf as Hb.
  split; [|split].
  - pose proof (hello_model_result_ext w1 w2 Hb Hg) as H.
    unfold get_root.
    destruct (hello_model w1) as [[s1|e1] u1];
      destruct (hello_model w2) as [[s2|e2] u2];
      cbn [fst] in *; congruence.
  - rewrite !get_root_events, !hello_model_events, Hb, Hg. reflexivity.
  - rewrite get_root_events, hello_model_events.
    destruct (stored_model w1); eexists; reflexivity.
Qed.

(** C9. Serving a request, whether it succeeds or fails, leaves the files,
    the contents of the entropy source and standard output as they were,
    and none of the calls it makes is a write.  What the invocation
    consumes is its own generator state from the entropy source. *)
Theorem get_root_frame w :
  files (snd (get_root w)) = files w /\
  entropy (snd (get_root w)) = entropy w /\
  stdout (snd (get_root w)) = stdout w /\
  existsb is_print (events_of get_root w) = false.
Proof.
  rewrite get_root_world, get_root_events, hello_model_events.
  destruct (hello_model_frame w) as (Hf & He & Ho).
  repeat split; auto.
  now destruct (stored_model w).
Qed.

End Claims.

(** * Further properties of the two scripts *)

Section Outcomes.

Context {xgb : XGBoostLib} {np : NumPyLib}.

Lemma valid_model_unique w b1 b2 :
  valid_model w b1 -> valid_model w b2 -> b1 = b2.
Proof. intros [H1 _] [H2 _]. congruence. Qed.

(** X1. A [GET /] is answered with status 200 only when the model file is
    there, parses and holds a model over 20 features; the status is never
    anything but 200 or 500. *)
Theorem get_root_status w :
  (status (fst (get_root w)) = 200%nat -> exists b, valid_model w b) /\
  (status (fst (get_root w)) = 200%nat \/
   status (fst (get_root w)) = 500%nat).
Proof.
  unfold get_root.
  destruct (hello_model_cases w)
    as [[Hb E]|[(b & Hb & Hnf & E)|(b & l & t & Hv & _ & _ & _ & _ & E)]];
    rewrite E; cbn [fst status].
  - split; [discriminate | now right].
  - split; [discriminate | now right].
  - split; [now exists b | now left].
Qed.

(** X2. When no model can be read from the file, because it is absent or
    because its contents do not parse, the handler raises xgboost's load
    error; when the model read is not over 20 features it raises the
    shape-mismatch error.  It never raises an index error, a broadcasting
    error or a not-fitted error: [x[0]] to [x[4]] are in range of the 20
    draws, [true] and [pred] both hold one element, and [predict] is only
    called once a model is loaded. *)
Theorem hello_model_failures w :
  (stored_model w = None -> fst (hello_model w) = Raise XGBoostError) /\
  (forall b, stored_model w = Some b -> num_features b <> 20%nat ->
             fst (hello_model w) = Raise ShapeMismatch) /\
  fst (hello_model w) <> Raise IndexError /\
  fst (hello_model w) <> Raise BroadcastError /\
  fst (hello_model w) <> Raise NotFittedError.
Proof.
  destruct (hello_model_cases w)
    as [[Hb E]|[(b & Hb & Hnf & E)|(b & l & t & [Hb Hnf] & _ & _ & _ & _ & E)]];
    rewrite E; cbn [fst]; rewrite Hb.
  - repeat split; discriminate.
  - repeat split; discriminate.
  - repeat split; try discriminate.
    intros b' Hb' Hnf'. injection Hb' as <-. contradiction.
Qed.

(** X3. The batch script prints last, so its output is all or nothing:
    either the exit status is 0, the model is valid and standard output
    grew by the [str] of the array of predictions on the 10 drawn rows and
    a newline, or the exit status is 1 and standard output is as it was. *)
Theorem fake_deploy_all_or_nothing w :
  (fst (python_main fake_deploy w) = 0%nat /\
   exists b,
     valid_model w b /\
     length (map (predict_row b) (fst (uniform2 (fresh_rng w) 10 20)))
     = 10%nat /\
     stdout (snd (python_main fake_deploy w))
     = (stdout w
        ++ array_str (map (predict_row b)
                          (fst (uniform2 (fresh_rng w) 10 20)))
        ++ newline)%string) \/
  (fst (python_main fake_deploy w) = 1%nat /\
   stdout (snd (python_main fake_deploy w)) = stdout w).
Proof.
  destruct (stored_model w) as [b|] eqn:Hb.
  - destruct (Nat.eq_dec (num_features b) 20) as [Hnf|Hnf].
    + left.
      pose proof (fake_deploy_ok w Hb Hnf) as E. cbv zeta in E.
      unfold python_main. rewrite E. split; [reflexivity|].
      exists b. split; [now split|]. split; [|reflexivity].
      rewrite length_map. apply uniform2_rows.
    + right.
      pose proof (fake_deploy_shape w Hb Hnf) as E. cbv zeta in E.
      unfold python_main. rewrite E. now split.
  - right. pose proof (fake_deploy_no_model w Hb) as E.
    unfold python_main. rewrite E. now split.
Qed.

Lemma sq_unit_interval y : -1 <= y <= 1 -> 0 <= y ^ 2 <= 1.
Proof.
  intros [Hl Hu]. replace (y ^ 2) with (y * y) by ring. split.
  - apply Rle_0_sqr.
  - assert (H : 0 <= (1 - y) * (1 + y)) by (apply Rmult_le_pos; lra). lra.
Qed.

(** The formula of line 18, times 5, on arguments in [0,1). *)
Lemma friedman_bounds x0 x1 x2 x3 x4 :
  0 <= x0 < 1 -> 0 <= x1 < 1 -> 0 <= x2 < 1 -> 0 <= x3 < 1 -> 0 <= x4 < 1 ->
  0 <= 5 * (2 * sin (PI * x0 * x1) + (2 * x2 - 1) ^ 2 + 2 * x3 + x4) <= 30.
Proof.
  intros H0 H1 H2 H3 H4.
  pose proof PI_RGT_0 as Hpi.
  assert (Hp : 0 <= x0 * x1 < 1) by nra.
  assert (Harg : 0 <= PI * x0 * x1 <= PI).
  { rewrite Rmult_assoc. split; nra. }
  assert (Hs0 : 0 <= sin (PI * x0 * x1)) by (apply sin_ge_0; lra).
  pose proof (SIN_bound (PI * x0 * x1)) as [_ Hs1].
  assert (Hq : 0 <= (2 * x2 - 1) ^ 2 <= 1) by (apply sq_unit_interval; lra).
  lra.
Qed.

(** X4. In every invocation with a valid model the reference value is
    [5 * (2*sin(pi*x0*x1) + (2*x2-1)^2 + 2*x3 + x4) + 0.1*n] for drawn
    features that all lie in [0,1), and its first summand, the value
    before the noise is added, lies between 0 and 30: the sine is taken
    between 0 and pi. *)
Theorem reference_without_noise_bounds w b :
  valid_model w b ->
  exists x0 x1 x2 x3 x4 rest n,
    draws w (x0 :: x1 :: x2 :: x3 :: x4 :: rest) n /\
    Forall (fun v => 0 <= v < 1) (x0 :: x1 :: x2 :: x3 :: x4 :: rest) /\
    reference_of w
      (5 * (2 * sin (PI * x0 * x1) + (2 * x2 - 1) ^ 2 + 2 * x3 + x4)
       + 0.1 * n) /\
    0 <= 5 * (2 * sin (PI * x0 * x1) + (2 * x2 - 1) ^ 2 + 2 * x3 + x4) <= 30.
Proof.
  intros Hv.
  destruct (draws_exist w) as (x0 & x1 & x2 & x3 & x4 & rest & n & Hd).
  pose proof (reference_of_draws Hv Hd) as Href. cbn [nth] in Href.
  assert (Hall : Forall (fun v => 0 <= v < 1)
                        (x0 :: x1 :: x2 :: x3 :: x4 :: rest)).
  { destruct Hd as [<- _]. apply uniform_feature_vector. }
  exists x0, x1, x2, x3, x4, rest, n.
  split; [exact Hd|]. split; [exact Hall|]. split; [exact Href|].
  inversion Hall as [|? ? A0 T0]; subst.
  inversion T0 as [|? ? A1 T1]; subst.
  inversion T1 as [|? ? A2 T2]; subst.
  inversion T2 as [|? ? A3 T3]; subst.
  inversion T3 as [|? ? A4 _]; subst.
  now apply friedman_bounds.
Qed.

(** X6. The prediction is made before the noise is drawn and does not
    depend on it: two invocations with the same model that draw the same
    feature vector reach the [return] with the same [x] and [pred],
    whatever their Gaussian samples are. *)
Theorem prediction_ignores_noise w1 w2 b :
  valid_model w1 b -> valid_model w2 b ->
  fst (uniform (fresh_rng w1) 20) = fst (uniform (fresh_rng w2) 20) ->
  exists l1 l2 u1 u2,
    hello_model_locals w1 = (Ok l1, u1) /\
    hello_model_locals w2 = (Ok l2, u2) /\
    x l1 = x l2 /\ pred l1 = pred l2 /\
    pred l1 = [predict_row b (x l1)].
Proof.
  intros [H1 N1] [H2 N2] Hx.
  pose proof (hello_model_locals_ok w1 H1 N1) as E1.
  pose proof (hello_model_locals_ok w2 H2 N2) as E2.
  cbv zeta in E1, E2.
  eexists _, _, _, _. split; [exact E1|]. split; [exact E2|].
  cbn [x pred]. rewrite Hx. repeat split.
Qed.

End Outcomes.

(** * The statements at work on the demo instance *)

Import Demo.

Lemma unit_of_half : unit_of half = 0.5.
Proof.
  unfold unit_of.
  replace (Z.of_N (N.shiftr (half mod 2 ^ 64) 11)) with 4503599627370496%Z
    by reflexivity.
  lra.
Qed.

Lemma unit_of_zero : unit_of 0 = 0.
Proof.
  unfold unit_of.
  replace (Z.of_N (N.shiftr (0 mod 2 ^ 64) 11)) with 0%Z by reflexivity.
  lra.
Qed.

Lemma draws_w_half :
  draws w_half (0.5 :: 0.5 :: 0.5 :: 0.5 :: 0.5 :: repeat 0.5 15) 0.
Proof.
  split.
  - change (fst (uniform (fresh_rng w_half) 20))
      with (repeat (unit_of half) 20).
    rewrite unit_of_half. reflexivity.
  - change (fst (normal (snd (uniform (fresh_rng w_half) 20)) 1))
      with [0 + 1 * 0].
    f_equal. lra.
Qed.

Lemma draws_w_tail :
  draws w_tail (0.5 :: 0.5 :: 0.5 :: 0.5 :: 0.5 :: repeat 0 15) 0.
Proof.
  split.
  - change (fst (uniform (fresh_rng w_tail) 20))
      with (repeat (unit_of half) 5 ++ repeat (unit_of 0) 15).
    rewrite unit_of_half, unit_of_zero. reflexivity.
  - change (fst (normal (snd (uniform (fresh_rng w_tail) 20)) 1))
      with [0 + 1 * 0].
    f_equal. lra.
Qed.

(** A model over another number of features is a model file that loads and
    that the handler cannot use: the request ends in the shape-mismatch
    error. *)
Lemma five_feature_model_is_refused :
  fst (hello_model (xgb := demo_xgb) w_tiny) = Raise ShapeMismatch /\
  status (fst (get_root (xgb := demo_xgb) w_tiny)) = 500%nat.
Proof. split; reflexivity. Qed.

(** C1 on [w_noisy]: all twenty draws are [unit_of half] and the Gaussian
    sample is [0 + 1 * 2]. *)
Lemma reference_value_formula_witness :
  reference_of (xgb := demo_xgb) w_noisy
    (5 * (2 * sin (PI * unit_of half * unit_of half)
          + (2 * unit_of half - 1) ^ 2 + 2 * unit_of half + unit_of half)
     + 0.1 * (0 + 1 * 2)).
Proof.
  refine (proj2 (@reference_value_formula demo_xgb demo_np w_noisy 20%nat
                   (unit_of half) (unit_of half) (unit_of half)
                   (unit_of half) (unit_of half)
                   (repeat (unit_of half) 15) (0 + 1 * 2) _ _)).
  - split; reflexivity.
  - split; reflexivity.
Defined.

(** C2 on [w_half]: every draw is 0.5 and the noise is 0. *)
Lemma get_root_ok_template_witness :
  fst (get_root (xgb := demo_xgb) w_half)
  = mkResponse 200
      ("Prediction: "
       ++ array_str (NumPyLib := demo_np)
            [predict_row (XGBoostLib := demo_xgb) 20%nat
               (0.5 :: 0.5 :: 0.5 :: 0.5 :: 0.5 :: repeat 0.5 15)]
       ++ newline ++
       " Error: "
       ++ array_str (NumPyLib := demo_np)
            [(5 * (2 * sin (PI * 0.5 * 0.5) + (2 * 0.5 - 1) ^ 2
                   + 2 * 0.5 + 0.5)
              + 0.1 * 0
              - predict_row (XGBoostLib := demo_xgb) 20%nat
                  (0.5 :: 0.5 :: 0.5 :: 0.5 :: 0.5 :: repeat 0.5 15)) ^ 2]
       ++ newline ++
       " n.b. model suboptimal to save time")%string.
Proof.
  refine (@get_root_ok_template demo_xgb demo_np w_half 20%nat
            0.5 0.5 0.5 0.5 0.5 (repeat 0.5 15) 0 _ _).
  - split; reflexivity.
  - exact draws_w_half.
Defined.

(** C3 on [w_half] and [w_tail], which differ in the last fifteen draws. *)
Lemma reference_value_at_half_witness :
  (exists t, reference_of (xgb := demo_xgb) w_half t
             /\ reference_of (xgb := demo_xgb) w_tail t) /\
  reference_of (xgb := demo_xgb) w_tail
    (5 * (2 * sin (PI * 0.25) + 0 + 1 + 0.5)).
Proof.
  destruct (@reference_value_at_half demo_xgb demo_np) as (Hdet & Hval & _).
  split.
  - apply (Hdet w_half w_tail 20%nat 20%nat 0.5 0.5 0.5 0.5 0.5
             (repeat 0.5 15) (repeat 0 15)).
    + split; reflexivity.
    + split; reflexivity.
    + exact draws_w_half.
    + exact draws_w_tail.
  - apply (Hval w_tail 20%nat (repeat 0 15)).
    + split; reflexivity.
    + exact draws_w_tail.
Defined.

(** C4 on [w_half]. *)
Lemma batch_predicts_once_prints_ten_witness :
  fst (python_main (fake_deploy (xgb := demo_xgb)) w_half) = 0%nat /\
  length (filter is_predict (events_of (fake_deploy (xgb := demo_xgb)) w_half))
  = 1%nat.
Proof.
  destruct (@batch_predicts_once_prints_ten demo_xgb demo_np w_half 20%nat)
    as (X & p & _ & _ & _ & Hexit & _ & _ & Hone & _).
  - split; reflexivity.
  - split; [exact Hexit | exact Hone].
Defined.

(** C5 on [w_half], and on a three-component row. *)
Lemma predict_receives_feature_vectors_witness :
  Forall feature_vector [fst (uniform (fresh_rng w_half) 20)] /\
  fst (predict (xgb := demo_xgb) (Some 20%nat) [[1; 2; 3]] w_half)
  = Raise ShapeMismatch.
Proof.
  destruct (@predict_receives_feature_vectors demo_xgb demo_np)
    as (Hweb & _ & Hcalled & Hshape).
  split.
  - destruct (Hcalled w_half 20%nat) as [Hin _].
    + split; reflexivity.
    + destruct (Hweb w_half _ Hin) as (_ & _ & Hfv). exact Hfv.
  - apply Hshape.
    + reflexivity.
    + apply Exists_cons_hd. simpl. discriminate.
Defined.

(** C6 on [w_missing]. *)
Lemma missing_model_fails_witness :
  status (fst (get_root (xgb := demo_xgb) w_missing)) = 500%nat /\
  fst (python_main (fake_deploy (xgb := demo_xgb)) w_missing) = 1%nat /\
  stdout (snd (python_main (fake_deploy (xgb := demo_xgb)) w_missing))
  = EmptyString.
Proof.
  destruct (@missing_model_fails demo_xgb demo_np w_missing)
    as (Hs & _ & _ & Hexit & Hout & _).
  - reflexivity.
  - split; [exact Hs | split; [exact Hexit | exact Hout]].
Defined.

(** C7 on [w_half] and the world a first request leaves behind: the second
    request, drawing the same numbers, gets the same answer. *)
Lemma requests_share_no_state_witness :
  fst (get_root (xgb := demo_xgb) w_half)
  = fst (get_root (xgb := demo_xgb) (snd (get_root (xgb := demo_xgb) w_half))).
Proof.
  refine (proj1 (@requests_share_no_state demo_xgb demo_np w_half
                   (snd (get_root (xgb := demo_xgb) w_half)) _ _)).
  - reflexivity.
  - reflexivity.
Defined.

(** C8 on [w_noisy] and [w_noisy_tail]: the draws agree on the first five
    components and on the noise, the reference values coincide, and the
    sum-of-features model of the demo predicts differently on the two. *)
Lemma reference_depends_on_first_five_witness :
  (exists t, reference_of (xgb := demo_xgb) w_noisy t
             /\ reference_of (xgb := demo_xgb) w_noisy_tail t) /\
  predict_row (XGBoostLib := demo_xgb) 20%nat
    (fst (uniform (fresh_rng w_noisy) 20))
  <> predict_row (XGBoostLib := demo_xgb) 20%nat
       (fst (uniform (fresh_rng w_noisy_tail) 20)).
Proof.
  split.
  - refine (proj2 (proj2
      (@reference_depends_on_first_five demo_xgb demo_np
         w_noisy w_noisy_tail 20%nat 20%nat
         (unit_of half) (unit_of half) (unit_of half) (unit_of half)
         (unit_of half) (repeat (unit_of half) 15) (repeat (unit_of 0) 15)
         (0 + 1 * 2) _ _ _ _))); split; reflexivity.
  - change (fold_right Rplus 0 (repeat (unit_of half) 20)
            <> fold_right Rplus 0
                 (repeat (unit_of half) 5 ++ repeat (unit_of 0) 15)).
    cbn [repeat fold_right app]. rewrite unit_of_half, unit_of_zero. lra.
Defined.


(** X1 on [w_tiny], whose model is over five features: the status cannot
    be 200, so it is 500. *)
Lemma get_root_status_witness :
  status (fst (get_root (xgb := demo_xgb) w_tiny)) = 500%nat.
Proof.
  destruct (@get_root_status demo_xgb demo_np w_tiny) as [Hvalid [H|H]].
  - destruct (Hvalid H) as (b & Hb & Hnf).
    injection Hb as <-. discriminate Hnf.
  - exact H.
Defined.

(** X2 on [w_tiny], whose model is over five features, and on a world
    whose model file does not parse. *)
Lemma hello_model_failures_witness :
  fst (hello_model (xgb := demo_xgb) w_tiny) = Raise ShapeMismatch /\
  fst (hello_model (xgb := demo_xgb)
         (demo_world (Some "not a model"%string) [] 0))
  = Raise XGBoostError.
Proof.
  split.
  - apply (proj1 (proj2 (@hello_model_failures demo_xgb demo_np w_tiny))
             5%nat).
    + reflexivity.
    + discriminate.
  - apply (proj1 (@hello_model_failures demo_xgb demo_np
                    (demo_world (Some "not a model"%string) [] 0))).
    reflexivity.
Defined.

(** X3 on [w_missing]: the first alternative needs a valid model, so the
    second holds. *)
Lemma fake_deploy_all_or_nothing_witness :
  fst (python_main (fake_deploy (xgb := demo_xgb)) w_missing) = 1%nat /\
  stdout (snd (python_main (fake_deploy (xgb := demo_xgb)) w_missing))
  = stdout w_missing.
Proof.
  destruct (@fake_deploy_all_or_nothing demo_xgb demo_np w_missing)
    as [(_ & b & [Hb _] & _)|H].
  - discriminate Hb.
  - exact H.
Defined.

(** X4 on [w_half]: the reference value at draws of 0.5 and noise 0, and
    the bounds of its first summand. *)
Lemma reference_without_noise_bounds_witness :
  reference_of (xgb := demo_xgb) w_half
    (5 * (2 * sin (PI * 0.5 * 0.5) + (2 * 0.5 - 1) ^ 2 + 2 * 0.5 + 0.5)
     + 0.1 * 0) /\
  0 <= 5 * (2 * sin (PI * 0.5 * 0.5) + (2 * 0.5 - 1) ^ 2 + 2 * 0.5 + 0.5)
    <= 30.
Proof.
  destruct (@reference_without_noise_bounds demo_xgb demo_np w_half 20%nat)
    as (x0 & x1 & x2 & x3 & x4 & rest & n & [Hx Hn] & _ & Href & Hb).
  - split; reflexivity.
  - destruct draws_w_half as [Hx' Hn'].
    rewrite Hx' in Hx. rewrite Hn' in Hn.
    injection Hx as <- <- <- <- <- <-. injection Hn as <-.
    split; [exact Href | exact Hb].
Defined.

(** X6 on [w_half] and [w_noisy], which differ in the Gaussian sample
    only. *)
Lemma prediction_ignores_noise_witness :
  exists l1 l2 u1 u2,
    hello_model_locals (xgb := demo_xgb) w_half = (Ok l1, u1) /\
    hello_model_locals (xgb := demo_xgb) w_noisy = (Ok l2, u2) /\
    pred l1 = pred l2.
Proof.
  destruct (@prediction_ignores_noise demo_xgb demo_np w_half w_noisy 20%nat)
    as (l1 & l2 & u1 & u2 & E1 & E2 & _ & Hp & _).
  - split; reflexivity.
  - split; reflexivity.
  - reflexivity.
  - exists l1, l2, u1, u2. split; [exact E1|]. split; [exact E2 | exact Hp].
Defined.
